(** * DES and its key schedule (sage/crypto/block_cipher/des.py)

    A shallow embedding of the two classes [DES] and [DES_KS] of
    [src/sage/crypto/block_cipher/des.py], followed by the properties of
    the specification that concern them.

    Conventions of the embedding:
    - a Python call that may raise is a value of [Py.result A]: either the
      exception raised or the value returned;
    - Python integers are [Z]; a bit vector over GF(2) is a [list bool];
    - an instance is a record of its attributes, and [__dict__] is the
      finite map from attribute names to attribute values;
    - a method that the source reaches through [self] ([self.encrypt],
      [self(...)]) is resolved through a class of bound methods, whose
      instance for the shipped classes is given by the bodies of the
      source. *)

From stdpp Require Import base strings list gmap fin_maps pretty.

Local Open Scope Z_scope.

(** ** The fragment of Python the module relies on *)

Module Py.

(** Exceptions raised by the module, or by the interpreter on its
    behalf. *)
Inductive exn :=
  | ValueError (msg : string)
  | NotImplementedError
  | AttributeError (msg : string)
  | IndexError (msg : string)
  | StopIteration.

Definition result (A : Type) : Type := exn + A.

Definition ok {A} (a : A) : result A := inr a.
Definition raise {A} (e : exn) : result A := inl e.

#[global] Instance result_ret : MRet result := λ A a, inr a.
#[global] Instance result_bind : MBind result := λ A B f c,
  match c with
  | inl e => inl e
  | inr a => f a
  end.

(** Values that are passed around as keys and blocks: [None], an
    integer, or a bit sequence. *)
Inductive val :=
  | VNone
  | VInt (z : Z)
  | VBits (bs : list bool).

#[global] Instance val_eq_dec : EqDecision val.
Proof. solve_decision. Defined.

(** [v == w] on such values.  Two integers, or two bit vectors, are
    compared as such; [None] equals only [None].  Between an integer and a
    bit vector the comparison goes through coercion: the integer 0 is
    coerced to the zero vector of the space of the other operand, and no
    other integer is coerced, so the two are equal exactly when the
    integer is 0 and every bit of the vector is 0. *)
Definition val_eqb (v w : val) : bool :=
  match v, w with
  | VNone, VNone => true
  | VInt a, VInt b => bool_decide (a = b)
  | VBits bs, VBits bs' => bool_decide (bs = bs')
  | VInt a, VBits bs | VBits bs, VInt a =>
      bool_decide (a = 0) && forallb negb bs
  | _, _ => false
  end.

(** [sys.maxsize], the largest index-sized integer, on a 64-bit build;
    the smallest one is [- maxsize - 1]. *)
Definition maxsize : Z := 2 ^ 63 - 1.

(** [l[i]] on a list: a negative index counts from the end, an index
    out of range raises [IndexError], with a message of its own when the
    index is not index-sized.  The interpreter converts the index before
    it looks at the list; a list has at most [maxsize] entries, so an
    index that cannot be converted is out of range, and testing the range
    first gives the same outcome. *)
Definition getitem {A} (l : list A) (i : Z) : result A :=
  let n := Z.of_nat (length l) in
  let j := if i <? 0 then i + n else i in
  if (j <? 0) || (n <=? j)
  then if (i <? - maxsize - 1) || (maxsize <? i)
       then raise (IndexError "cannot fit 'int' into an index-sized integer")
       else raise (IndexError "list index out of range")
  else match l !! Z.to_nat j with
       | Some x => ok x
       | None => raise (IndexError "list index out of range")
       end.

(** A slice bound [i] of a sequence of length [n], clamped the way
    [slice.indices] does for step 1. *)
Definition slice_bound (n : Z) (i : Z) : nat :=
  Z.to_nat (if i <? 0 then Z.max (i + n) 0 else Z.min i n).

(** [l[lo:hi]], either bound possibly omitted. *)
Definition slice {A} (l : list A) (lo hi : option Z) : list A :=
  let n := Z.of_nat (length l) in
  let a := from_option (slice_bound n) 0%nat lo in
  let b := from_option (slice_bound n) (length l) hi in
  take (b - a)%nat (drop a l).

(** [iter(l)] on a list: the iterator holds what is still to come. *)
Record list_iterator (A : Type) := ListIterator { pending : list A }.
Arguments ListIterator {A} _.
Arguments pending {A} _.

Definition iter {A} (l : list A) : list_iterator A := ListIterator l.

Definition next {A} (it : list_iterator A) : result (A * list_iterator A) :=
  match pending it with
  | [] => raise StopIteration
  | x :: rest => ok (x, ListIterator rest)
  end.

(** What a [for] loop over the iterator sees: [next] until
    [StopIteration].  The fuel bounds the number of calls. *)
Fixpoint consume {A} (fuel : nat) (it : list_iterator A) : option (list A) :=
  match fuel with
  | O => None
  | S fuel' =>
      match next it with
      | inr (x, it') => cons x <$> consume fuel' it'
      | inl StopIteration => Some []
      | inl _ => None
      end
  end.

(** [a == b] on dictionaries: the same number of entries, and every key
    of [a] is a key of [b] with an equal value. *)
Definition dict_eqb {V} (veq : V → V → bool) (a b : gmap string V) : bool :=
  bool_decide (size a = size b) &&
  forallb (λ kv, match b !! kv.1 with
                 | Some w => veq kv.2 w
                 | None => false
                 end) (map_to_list a).

(** *** Objects and references

    Vectors and lists are objects: they live in a store and are passed by
    reference.  A computation on objects takes the store and returns the
    new store with either the exception raised or the value returned;
    [None] stands for the use of a reference that denotes nothing, which
    Python cannot produce. *)
Inductive object :=
  | Vector (bs : list bool)
  | List (bs : list bool).

Definition run (A : Type) : Type :=
  gmap positive object → option (gmap positive object * result A).

#[global] Instance run_ret : MRet run := λ A a σ, Some (σ, ok a).
#[global] Instance run_bind : MBind run := λ A B k m σ,
  match m σ with
  | None => None
  | Some (σ', inl e) => Some (σ', inl e)
  | Some (σ', inr a) => k a σ'
  end.

(** A call that does not touch the store. *)
Definition lift {A} (r : result A) : run A := λ σ, Some (σ, r).

(** A new object, at an address not in use. *)
Definition alloc (o : object) : run positive := λ σ,
  let p := fresh (dom σ) in Some (<[p := o]> σ, ok p).

(** The entries of a sequence, and of the sequence a reference
    denotes. *)
Definition contents (o : object) : list bool :=
  match o with
  | Vector bs | List bs => bs
  end.

Definition entries (p : positive) : run (list bool) := λ σ,
  match σ !! p with
  | Some o => Some (σ, ok (contents o))
  | None => None
  end.

(** [p[lo:hi]]: a new sequence of the kind of [p]. *)
Definition getslice (p : positive) (lo hi : option Z) : run positive := λ σ,
  match σ !! p with
  | Some (Vector bs) => alloc (Vector (slice bs lo hi)) σ
  | Some (List bs) => alloc (List (slice bs lo hi)) σ
  | None => None
  end.

(** [list(p)]: a new list with the entries of [p]. *)
Definition to_list (p : positive) : run positive :=
  bs ← entries p; alloc (List bs).

(** [p + q] on lists: a new list. *)
Definition list_add (p q : positive) : run positive :=
  bs ← entries p; bs' ← entries q; alloc (List (bs ++ bs')).

(** [vector(GF(2), p)]: a new vector with the entries of [p]. *)
Definition to_vector_GF2 (p : positive) : run positive :=
  bs ← entries p; alloc (Vector bs).

(** [str(v)], as the [%s] of a format string applies it: an integer in
    decimal, a bit sequence the way a vector prints. *)
Definition str (v : val) : string :=
  match v with
  | VNone => "None"
  | VInt z => pretty z
  | VBits bs =>
      "(" +:+ String.concat ", " ((λ b : bool, if b then "1" else "0") <$> bs)
      +:+ ")"
  end.

End Py.

Import Py.

(** ** The key schedule: class [DES_KS] *)

Module DES_KS.

(** An instance, by its attributes. *)
Record t := mk { _rounds : Z; _master_key : val }.

(** The argument [other] of [__eq__], as [isinstance(other, DES_KS)] sees
    it: an instance of the class, or anything else. *)
Inductive object :=
  | Instance (o : t)
  | Foreign.

Definition __init__ (rounds : Z) (master_key : val) : t :=
  {| _rounds := rounds; _master_key := master_key |}.

(** The call [DES_KS(...)]: an omitted argument takes the default of the
    signature [rounds=16, master_key=None]. *)
Definition new (rounds : option Z) (master_key : option val) : t :=
  __init__ (default 16 rounds) (default VNone master_key).

Definition __call__ (self : t) (K : val) : result (list val) :=
  raise NotImplementedError.

(** What [self(K)] resolves to at run time. *)
Class Bound := self_call : t → val → result (list val).

Definition __dict__ (self : t) : gmap string val :=
  <["_rounds" := VInt (_rounds self)]>
    (<["_master_key" := _master_key self]> ∅).

Definition __eq__ (self : t) (other : object) : bool :=
  match other with
  | Foreign => false
  | Instance o => dict_eqb val_eqb (__dict__ self) (__dict__ o)
  end.

Definition __getitem__ `{Bound} (self : t) (r : Z) : result val :=
  match _master_key self with
  | VNone => raise (ValueError "Key not set during initialisation")
  | _ => l ← self_call self (_master_key self); getitem l r
  end.

Definition __iter__ `{Bound} (self : t) : result (list_iterator val) :=
  match _master_key self with
  | VNone => raise (ValueError "Key not set during initialisation")
  | _ => l ← self_call self (_master_key self); ok (iter l)
  end.

Definition _pc1 (self : t) (key : val) : result (list bool) :=
  raise NotImplementedError.

Definition _pc2 (self : t) (key : val) : result (list bool) :=
  raise NotImplementedError.

(** [vector(GF(2), l)] on a list of elements of GF(2): a new vector with
    the same entries. *)
Definition vector_GF2 (l : list bool) : list bool := l.

Definition _left_shift (self : t) (half : list bool) (i : Z)
  : result (list bool) :=
  let amount := [1; 1; 2; 2; 2; 2; 2; 2; 1; 2; 2; 2; 2; 2; 2; 1] in
  a ← getitem amount (i - 1);
  ok (vector_GF2 (slice half (Some a) None ++ slice half (Some 0) (Some a))).

(** The same method on objects.  Each step of the expression
    [vector(GF(2), list(half[a:]) + list(half[0:a]))] is carried out in
    the store, in the order Python evaluates it. *)
Definition _left_shift_ref (self : t) (half : positive) (i : Z)
  : run positive :=
  let amount := [1; 1; 2; 2; 2; 2; 2; 2; 1; 2; 2; 2; 2; 2; 2; 1] in
  a ← lift (getitem amount (i - 1));
  t1 ← getslice half (Some a) None;
  l1 ← to_list t1;
  a' ← lift (getitem amount (i - 1));
  t2 ← getslice half (Some 0) (Some a');
  l2 ← to_list t2;
  l ← list_add l1 l2;
  to_vector_GF2 l.

(** [self.name] for a data attribute: the entry of the instance
    dictionary, which [__init__] is the only one to fill. *)
Definition getattr (self : t) (name : string) : result val :=
  match __dict__ self !! name with
  | Some v => ok v
  | None =>
      raise (AttributeError
        ("'DES_KS' object has no attribute '" +:+ name +:+ "'"))
  end.

Definition __repr__ (self : t) : result string :=
  keysize ← getattr self "_keysize";
  rounds ← getattr self "_rounds";
  ok ("Original DES key schedule with " +:+ str keysize
      +:+ "-bit keys and " +:+ str rounds +:+ " rounds").

(** The class as shipped: [self(K)] is [DES_KS.__call__]. *)
#[global] Instance shipped : Bound := __call__.

End DES_KS.

(** ** The cipher: class [DES] *)

Module DES.

Record t := mk { _rounds : Z; _keySchedule : DES_KS.t; _blocksize : Z }.

Inductive object :=
  | Instance (o : t)
  | Foreign.

(** What the parameter [keySchedule] of the constructor can hold: [None],
    [False] (the default of the signature), or a key schedule. *)
Inductive keySchedule_arg :=
  | KsNone
  | KsFalse
  | KsObject (ks : DES_KS.t).

(** The object whose attribute [_rounds] is read in
    [self._keySchedule._rounds]: only a key schedule has the attribute. *)
Definition with_rounds (v : keySchedule_arg) : result DES_KS.t :=
  match v with
  | KsObject ks => ok ks
  | KsFalse =>
      raise (AttributeError "'bool' object has no attribute '_rounds'")
  | KsNone =>
      raise (AttributeError "'NoneType' object has no attribute '_rounds'")
  end.

Definition __init__ (rounds : option Z) (keySchedule : keySchedule_arg)
  : result t :=
  let self_keySchedule :=
    match keySchedule with
    | KsNone => KsObject (DES_KS.new None None)
    | _ => keySchedule
    end in
  match rounds with
  | None =>
      ks ← with_rounds self_keySchedule;
      ok {| _rounds := DES_KS._rounds ks; _keySchedule := ks;
            _blocksize := 64 |}
  | Some n =>
      ks ← with_rounds self_keySchedule;
      if n <=? DES_KS._rounds ks
      then ok {| _rounds := n; _keySchedule := ks; _blocksize := 64 |}
      else raise (ValueError
        "number of rounds must be less or equal to the number of rounds of the key schedule")
  end.

(** The call [DES(...)]: an omitted argument takes the default of the
    signature [rounds=None, keySchedule=False]. *)
Definition new (rounds : option Z) (keySchedule : option keySchedule_arg)
  : result t :=
  __init__ rounds (default KsFalse keySchedule).

Definition encrypt (self : t) (P K : val) : result val :=
  raise NotImplementedError.

Definition decrypt (self : t) (C K : val) : result val :=
  raise NotImplementedError.

(** What [self.encrypt] and [self.decrypt] resolve to at run time. *)
Class Bound := {
  self_encrypt : t → val → val → result val;
  self_decrypt : t → val → val → result val
}.

Definition __call__ `{Bound} (self : t) (B K : val) (algorithm : string)
  : result val :=
  if String.eqb algorithm "encrypt" then self_encrypt self B K
  else if String.eqb algorithm "decrypt" then self_decrypt self B K
  else raise (ValueError
    ("Algorithm must be 'encrypt' or 'decrypt' and not '" +:+ algorithm +:+ "'")).

Definition __repr__ (self : t) : result string :=
  raise NotImplementedError.

(** Attribute values of an instance. *)
Inductive attr :=
  | AVal (v : val)
  | AKeySchedule (ks : DES_KS.t).

(** [a == b] on attribute values; on key schedules it is
    [DES_KS.__eq__]. *)
Definition attr_eqb (a b : attr) : bool :=
  match a, b with
  | AVal v, AVal w => val_eqb v w
  | AKeySchedule k, AKeySchedule k' => DES_KS.__eq__ k (DES_KS.Instance k')
  | _, _ => false
  end.

Definition __dict__ (self : t) : gmap string attr :=
  <["_keySchedule" := AKeySchedule (_keySchedule self)]>
    (<["_rounds" := AVal (VInt (_rounds self))]>
       (<["_blocksize" := AVal (VInt (_blocksize self))]> ∅)).

Definition __eq__ (self : t) (other : object) : bool :=
  match other with
  | Foreign => false
  | Instance o => dict_eqb attr_eqb (__dict__ self) (__dict__ o)
  end.

(** The class as shipped. *)
#[global] Instance shipped : Bound :=
  {| self_encrypt := encrypt; self_decrypt := decrypt |}.

End DES.

(** * Properties *)

(** ** Calls that may raise *)

Lemma bind_ok {A B} (a : A) (k : A → result B) : ok a ≫= k = k a.
Proof. reflexivity. Qed.

Lemma bind_raise {A B} (e : exn) (k : A → result B) :
  (raise e : result A) ≫= k = raise e.
Proof. reflexivity. Qed.

(** ** Sequences: indexing and slicing *)

Section sequences.
Context {A : Type}.
Implicit Types (l : list A) (a : Z).

Lemma slice_from l a : 0 ≤ a → slice l (Some a) None = drop (Z.to_nat a) l.
Proof.
  intros Ha. unfold slice, slice_bound; simpl.
  destruct (Z.ltb_spec a 0) as [?|_]; [lia|].
  destruct (Z.le_gt_cases a (Z.of_nat (length l))) as [Hle|Hgt].
  - rewrite Z.min_l by done. apply take_ge. rewrite length_drop. lia.
  - rewrite Z.min_r by lia. rewrite Nat2Z.id.
    rewrite !drop_ge by lia. by rewrite take_nil.
Qed.

Lemma slice_to l a : 0 ≤ a → slice l (Some 0) (Some a) = take (Z.to_nat a) l.
Proof.
  intros Ha. unfold slice, slice_bound; simpl.
  destruct (Z.ltb_spec a 0) as [?|_]; [lia|].
  rewrite (Z.min_l 0) by lia. simpl. rewrite drop_0, Nat.sub_0_r.
  destruct (Z.le_gt_cases a (Z.of_nat (length l))) as [Hle|Hgt].
  - by rewrite Z.min_l.
  - rewrite Z.min_r by lia. rewrite Nat2Z.id.
    by rewrite !take_ge by lia.
Qed.

End sequences.

(** ** The rotation of a half *)

(** [DES_KS._left_shift] once the table has given the amount. *)
Lemma left_shift_by (self : DES_KS.t) (half : list bool) (i a : Z) :
  getitem [1; 1; 2; 2; 2; 2; 2; 2; 1; 2; 2; 2; 2; 2; 2; 1] (i - 1) = ok a →
  0 ≤ a →
  DES_KS._left_shift self half i
  = ok (drop (Z.to_nat a) half ++ take (Z.to_nat a) half).
Proof.
  intros Hget Ha. unfold DES_KS._left_shift. cbv zeta. rewrite Hget.
  rewrite bind_ok. unfold DES_KS.vector_GF2.
  by rewrite slice_from, slice_to.
Qed.

(** C7: for a round [i] from 1 to 16 the method rotates the half left by
    the amount of the shift table, 1 for the rounds 1, 2, 9 and 16 and 2
    for the others, the result being [H[a:] ++ H[0:a]]; on the pattern
    (1,0,1,0,1,0) round 1 gives (0,1,0,1,0,1) and round 3 gives the
    pattern back. *)
Theorem left_shift_rotates :
  (∀ (self : DES_KS.t) (H : list bool) (i : Z),
      1 ≤ i ≤ 16 →
      let a := if bool_decide (i ∈ [1; 2; 9; 16]) then 1%nat else 2%nat in
      DES_KS._left_shift self H i = ok (drop a H ++ take a H))
  ∧ (∀ self : DES_KS.t,
        DES_KS._left_shift self [true; false; true; false; true; false] 1
        = ok [false; true; false; true; false; true])
  ∧ (∀ self : DES_KS.t,
        DES_KS._left_shift self [true; false; true; false; true; false] 3
        = ok [true; false; true; false; true; false]).
Proof.
  split; [|split; intros; reflexivity].
  intros self H i Hi.
  assert (i = 1 ∨ i = 2 ∨ i = 3 ∨ i = 4 ∨ i = 5 ∨ i = 6 ∨ i = 7 ∨ i = 8
          ∨ i = 9 ∨ i = 10 ∨ i = 11 ∨ i = 12 ∨ i = 13 ∨ i = 14 ∨ i = 15
          ∨ i = 16) as Hcases by lia.
  repeat destruct Hcases as [->|Hcases]; try subst i;
    match goal with
    | |- context [bool_decide ?P] =>
        let b := eval vm_compute in (bool_decide P) in
        change (bool_decide P) with b; cbv zeta iota
    end;
    first [ by apply (left_shift_by _ _ _ 1) | by apply (left_shift_by _ _ _ 2) ].
Qed.

Lemma left_shift_rotates_witness :
  DES_KS._left_shift (DES_KS.new None None) [true; true; false] 9
  = ok [true; false; true].
Proof.
  apply (proj1 left_shift_rotates (DES_KS.new None None) [true; true; false] 9).
  lia.
Defined.

(** C10: round index 0 does not fail: the table is read at position -1,
    its last entry, so the half is rotated by one bit, as it is for the
    rounds 1 and 16. *)
Theorem left_shift_round_zero (self : DES_KS.t) (H : list bool) :
  DES_KS._left_shift self H 0 = ok (drop 1 H ++ take 1 H)
  ∧ DES_KS._left_shift self H 0 = DES_KS._left_shift self H 1
  ∧ DES_KS._left_shift self H 0 = DES_KS._left_shift self H 16.
Proof.
  assert (∀ i, i = 0 ∨ i = 1 ∨ i = 16 →
            DES_KS._left_shift self H i = ok (drop 1 H ++ take 1 H)) as Hone.
  { intros i [->|[->| ->]]; by apply (left_shift_by _ _ _ 1). }
  rewrite !Hone by auto. done.
Qed.

(** ** Computations on objects *)

Section store.
Implicit Types (σ : gmap positive object) (p q : positive) (o : object).

Lemma run_bind_ok {A B} (m : run A) (k : A → run B) σ σ1 a :
  m σ = Some (σ1, ok a) → (m ≫= k) σ = k a σ1.
Proof. intros Hm. unfold mbind, run_bind. by rewrite Hm. Qed.

Lemma run_bind_raise {A B} (m : run A) (k : A → run B) σ σ1 e :
  m σ = Some (σ1, raise e) → (m ≫= k) σ = Some (σ1, raise e).
Proof. intros Hm. unfold mbind, run_bind. by rewrite Hm. Qed.

(** A new object sits at an address that was not in use, and nothing
    else changes. *)
Lemma alloc_new σ o :
  ∃ q, σ !! q = None ∧ alloc o σ = Some (<[q := o]> σ, ok q).
Proof.
  exists (fresh (dom σ)). split; [|done].
  apply not_elem_of_dom, is_fresh.
Qed.

Lemma entries_run σ p o :
  σ !! p = Some o → entries p σ = Some (σ, ok (contents o)).
Proof. intros Hp. unfold entries. by rewrite Hp. Qed.

Lemma getslice_new σ p o lo hi :
  σ !! p = Some o →
  ∃ q o', σ !! q = None ∧ contents o' = slice (contents o) lo hi
    ∧ getslice p lo hi σ = Some (<[q := o']> σ, ok q).
Proof.
  intros Hp. unfold getslice. rewrite Hp.
  destruct o as [bs|bs].
  - destruct (alloc_new σ (Vector (slice bs lo hi))) as (q & Hq & ->).
    by exists q, (Vector (slice bs lo hi)).
  - destruct (alloc_new σ (List (slice bs lo hi))) as (q & Hq & ->).
    by exists q, (List (slice bs lo hi)).
Qed.

Lemma to_list_new σ p o :
  σ !! p = Some o →
  ∃ q, σ !! q = None
    ∧ to_list p σ = Some (<[q := List (contents o)]> σ, ok q).
Proof.
  intros Hp. unfold to_list.
  rewrite (run_bind_ok _ _ _ _ _ (entries_run _ _ _ Hp)). apply alloc_new.
Qed.

Lemma list_add_new σ p q o o' :
  σ !! p = Some o → σ !! q = Some o' →
  ∃ r, σ !! r = None
    ∧ list_add p q σ = Some (<[r := List (contents o ++ contents o')]> σ, ok r).
Proof.
  intros Hp Hq. unfold list_add.
  rewrite (run_bind_ok _ _ _ _ _ (entries_run _ _ _ Hp)).
  rewrite (run_bind_ok _ _ _ _ _ (entries_run _ _ _ Hq)). apply alloc_new.
Qed.

Lemma to_vector_GF2_new σ p o :
  σ !! p = Some o →
  ∃ q, σ !! q = None
    ∧ to_vector_GF2 p σ = Some (<[q := Vector (contents o)]> σ, ok q).
Proof.
  intros Hp. unfold to_vector_GF2.
  rewrite (run_bind_ok _ _ _ _ _ (entries_run _ _ _ Hp)). apply alloc_new.
Qed.

(** An object survives the creation of another one. *)
Lemma lookup_insert_new σ p q o o' :
  σ !! p = Some o → σ !! q = None → <[q := o']> σ !! p = Some o.
Proof.
  intros Hp Hq. rewrite lookup_insert_ne; [done|]. congruence.
Qed.

End store.

(** The method on objects computes what the method on values does, and
    every object of the store it started from is still there, as it
    was. *)
Lemma left_shift_ref_run (self : DES_KS.t) (σ : gmap positive object)
    (half : positive) (o : object) (i : Z) :
  σ !! half = Some o →
  match DES_KS._left_shift self (contents o) i with
  | inl e => DES_KS._left_shift_ref self half i σ = Some (σ, raise e)
  | inr v =>
      ∃ σ' q, DES_KS._left_shift_ref self half i σ = Some (σ', ok q)
        ∧ σ ⊆ σ' ∧ σ !! q = None ∧ σ' !! q = Some (Vector v)
  end.
Proof.
  intros Hhalf. unfold DES_KS._left_shift, DES_KS._left_shift_ref. cbv zeta.
  destruct (getitem _ (i - 1)) as [e|a] eqn:Hget.
  { rewrite bind_raise. by rewrite (run_bind_raise _ _ σ σ e). }
  rewrite bind_ok. rewrite (run_bind_ok _ _ σ σ a) by done.
  destruct (getslice_new σ half o (Some a) None Hhalf)
    as (t1 & o1 & Ht1 & Ho1 & E1).
  rewrite (run_bind_ok _ _ _ _ _ E1). clear E1.
  set (σ1 := <[t1 := o1]> σ).
  destruct (to_list_new σ1 t1 o1) as (l1 & Hl1 & E2);
    [apply lookup_insert_eq|].
  rewrite (run_bind_ok _ _ _ _ _ E2). clear E2.
  set (σ2 := <[l1 := _]> σ1).
  rewrite (run_bind_ok _ _ σ2 σ2 a) by done.
  assert (σ2 !! half = Some o) as Hhalf2
    by (do 2 (apply lookup_insert_new; [|done]); done).
  destruct (getslice_new σ2 half o (Some 0) (Some a) Hhalf2)
    as (t2 & o2 & Ht2 & Ho2 & E3).
  rewrite (run_bind_ok _ _ _ _ _ E3). clear E3.
  set (σ3 := <[t2 := o2]> σ2).
  destruct (to_list_new σ3 t2 o2) as (l2 & Hl2 & E4);
    [apply lookup_insert_eq|].
  rewrite (run_bind_ok _ _ _ _ _ E4). clear E4.
  set (σ4 := <[l2 := _]> σ3).
  destruct (list_add_new σ4 l1 l2 (List (contents o1)) (List (contents o2)))
    as (l & Hl & E5).
  { do 2 (apply lookup_insert_new; [|done]). apply lookup_insert_eq. }
  { apply lookup_insert_eq. }
  rewrite (run_bind_ok _ _ _ _ _ E5). clear E5.
  set (σ5 := <[l := _]> σ4).
  destruct (to_vector_GF2_new σ5 l (List (contents o1 ++ contents o2)))
    as (v & Hv & E6); [apply lookup_insert_eq|].
  rewrite E6. eexists _, v. split; [done|].
  assert (σ ⊆ σ5) as Hsub.
  { repeat (etrans; [|by apply insert_subseteq]). done. }
  split; [|split].
  - etrans; [exact Hsub|]. by apply insert_subseteq.
  - destruct (σ !! v) as [o'|] eqn:Hσv; [|done].
    apply (lookup_weaken _ _ _ _ Hσv) in Hsub. congruence.
  - rewrite lookup_insert_eq. simpl. unfold DES_KS.vector_GF2.
    by rewrite Ho1, Ho2.
Qed.

(** C8: the rotation leaves its argument as it was: the vector the
    reference [half] denotes before the call is the one it denotes after
    it, for every half and every round index, whether the call returns or
    raises; what is returned is another object, which holds the rotated
    bits. *)
Theorem left_shift_keeps_half (self : DES_KS.t) (σ : gmap positive object)
    (half : positive) (o : object) (i : Z) :
  σ !! half = Some o →
  ∃ σ' r, DES_KS._left_shift_ref self half i σ = Some (σ', r)
    ∧ σ' !! half = Some o
    ∧ (∀ p o', σ !! p = Some o' → σ' !! p = Some o')
    ∧ match r with
      | inr q =>
          q ≠ half
          ∧ ∃ v, σ' !! q = Some (Vector v)
              ∧ DES_KS._left_shift self (contents o) i = ok v
      | inl e => DES_KS._left_shift self (contents o) i = raise e
      end.
Proof.
  intros Hhalf. pose proof (left_shift_ref_run self σ half o i Hhalf) as Hrun.
  destruct (DES_KS._left_shift self (contents o) i) as [e|v].
  - exists σ, (raise e). by split_and!.
  - destruct Hrun as (σ' & q & Hrun & Hsub & Hq & Hv).
    exists σ', (ok q). split; [done|].
    split; [by eapply lookup_weaken|].
    split; [intros p o' Hp; by eapply lookup_weaken|].
    split; [congruence|]. by exists v.
Qed.

Lemma left_shift_keeps_half_witness :
  ∃ σ' r,
    DES_KS._left_shift_ref (DES_KS.new None None) 1%positive 1
      {[ 1%positive := Vector [true; false; true; false; true; false] ]}
    = Some (σ', r)
    ∧ σ' !! 1%positive = Some (Vector [true; false; true; false; true; false]).
Proof.
  destruct (left_shift_keeps_half (DES_KS.new None None)
              {[ 1%positive := Vector [true; false; true; false; true; false] ]}
              1%positive (Vector [true; false; true; false; true; false]) 1)
    as (σ' & r & Hrun & Hhalf & _); [reflexivity|].
  by exists σ', r.
Defined.

(** ** Equality of instances *)

Section dictionaries.
Context {V : Type} (veq : V → V → bool).

(** [==] on dictionaries, entry by entry. *)
Lemma dict_eqb_spec (a b : gmap string V) :
  dict_eqb veq a b = true
  ↔ size a = size b
    ∧ ∀ k v, a !! k = Some v → ∃ w, b !! k = Some w ∧ veq v w = true.
Proof.
  unfold dict_eqb. rewrite andb_true_iff, bool_decide_eq_true, forallb_forall.
  split; intros [Hsize Hall]; (split; [done|]).
  - intros k v Hk. specialize (Hall (k, v)). simpl in Hall.
    destruct (b !! k) as [w|].
    + exists w. split; [done|].
      apply Hall, list_elem_of_In, elem_of_map_to_list, Hk.
    + discriminate Hall. apply list_elem_of_In, elem_of_map_to_list, Hk.
  - intros [k v] Hin. simpl.
    apply list_elem_of_In, elem_of_map_to_list in Hin.
    by destruct (Hall k v Hin) as (w & -> & Hw).
Qed.

End dictionaries.

Lemma val_eqb_refl (v : val) : val_eqb v v = true.
Proof. destruct v; simpl; by try apply bool_decide_eq_true. Qed.

Lemma val_eqb_sym (v w : val) : val_eqb v w = val_eqb w v.
Proof.
  destruct v, w; simpl; try done; apply bool_decide_ext; split; congruence.
Qed.

Lemma val_eqb_int (a b : Z) : val_eqb (VInt a) (VInt b) = true ↔ a = b.
Proof. simpl. apply bool_decide_eq_true. Qed.


(** Reads the attribute looked up in [H] off a dictionary given by its
    entries. *)
Ltac read_attr H :=
  repeat first
    [ rewrite lookup_insert_eq in H
    | rewrite lookup_insert_ne in H by done ].

(** The entry of [H : d !! k = Some v], for a dictionary [d] given by its
    entries: one case for each. *)
Ltac each_attr H :=
  repeat (apply lookup_insert_Some in H as [[<- <-]|[? H]]);
  [..|by rewrite lookup_empty in H].

Lemma DES_KS_eq_spec (a b : DES_KS.t) :
  DES_KS.__eq__ a (DES_KS.Instance b) = true
  ↔ DES_KS._rounds a = DES_KS._rounds b
    ∧ val_eqb (DES_KS._master_key a) (DES_KS._master_key b) = true.
Proof.
  unfold DES_KS.__eq__. rewrite dict_eqb_spec.
  destruct a as [r k], b as [r' k']. unfold DES_KS.__dict__.
  cbn [DES_KS._rounds DES_KS._master_key]. split.
  - intros [_ Hall].
    destruct (Hall "_rounds" (VInt r)) as (w & Hw & Hr);
      [apply lookup_insert_eq|].
    destruct (Hall "_master_key" k) as (w' & Hw' & Hk);
      [rewrite lookup_insert_ne by done; apply lookup_insert_eq|].
    read_attr Hw. read_attr Hw'. injection Hw as <-. injection Hw' as <-.
    split; [by apply val_eqb_int|done].
  - intros [<- Hk]. split.
    + rewrite <-!size_dom, !dom_insert_L. done.
    + intros key v Hv. each_attr Hv.
      * exists (VInt r). split; [apply lookup_insert_eq|apply val_eqb_refl].
      * exists k'. split; [|done].
        rewrite lookup_insert_ne by done. apply lookup_insert_eq.
Qed.

Lemma DES_eq_spec (a b : DES.t) :
  DES.__eq__ a (DES.Instance b) = true
  ↔ DES._rounds a = DES._rounds b
    ∧ DES_KS.__eq__ (DES._keySchedule a)
        (DES_KS.Instance (DES._keySchedule b)) = true
    ∧ DES._blocksize a = DES._blocksize b.
Proof.
  unfold DES.__eq__. rewrite dict_eqb_spec.
  destruct a as [r k n], b as [r' k' n']. unfold DES.__dict__.
  cbn [DES._rounds DES._keySchedule DES._blocksize]. split.
  - intros [_ Hall].
    destruct (Hall "_rounds" (DES.AVal (VInt r))) as (w & Hw & Hr);
      [rewrite lookup_insert_ne by done; apply lookup_insert_eq|].
    destruct (Hall "_keySchedule" (DES.AKeySchedule k)) as (w' & Hw' & Hk);
      [apply lookup_insert_eq|].
    destruct (Hall "_blocksize" (DES.AVal (VInt n))) as (w'' & Hw'' & Hn);
      [do 2 (rewrite lookup_insert_ne by done); apply lookup_insert_eq|].
    read_attr Hw. read_attr Hw'. read_attr Hw''.
    injection Hw as <-. injection Hw' as <-. injection Hw'' as <-.
    unfold DES.attr_eqb in Hr, Hk, Hn.
    split_and!; [by apply val_eqb_int|done|by apply val_eqb_int].
  - intros (<- & Hk & <-). split.
    + rewrite <-!size_dom, !dom_insert_L. done.
    + intros key v Hv. each_attr Hv.
      * exists (DES.AKeySchedule k'). split; [apply lookup_insert_eq|done].
      * exists (DES.AVal (VInt r)).
        split; [rewrite lookup_insert_ne by done; apply lookup_insert_eq|].
        apply val_eqb_refl.
      * exists (DES.AVal (VInt n)).
        split; [do 2 (rewrite lookup_insert_ne by done); apply lookup_insert_eq|].
        apply val_eqb_refl.
Qed.



(** ** Construction of a cipher *)

Example init_explicit_None :
  DES.__init__ None DES.KsNone
  = ok {| DES._rounds := 16;
          DES._keySchedule := {| DES_KS._rounds := 16;
                                 DES_KS._master_key := VNone |};
          DES._blocksize := 64 |}.
Proof. reflexivity. Qed.

(** C3: with [keySchedule] omitted the constructor does not build the
    default key schedule: the parameter then holds [False], the test
    [keySchedule is None] fails, and reading [_rounds] off [False] raises
    [AttributeError], whether [rounds] is given or not.  Passing [None]
    explicitly does give the default schedule of 16 rounds without a
    master key, and 16 rounds. *)
Theorem new_without_keySchedule :
  DES.new None None
  = raise (AttributeError "'bool' object has no attribute '_rounds'")
  ∧ (∀ n : Z,
        DES.new (Some n) None
        = raise (AttributeError "'bool' object has no attribute '_rounds'"))
  ∧ DES.new None (Some DES.KsNone)
    = ok {| DES._rounds := 16;
            DES._keySchedule := DES_KS.new None None;
            DES._blocksize := 64 |}.
Proof. split_and!; reflexivity. Qed.

(** C4: with a key schedule [ks] given, the cipher takes the rounds of
    [ks] when [rounds] is [None]; a given [rounds] that is at most the
    rounds of [ks] is taken as it is; a larger one makes the constructor
    raise [ValueError], the error the specification calls
    ConfigurationError. *)
Theorem init_rounds (ks : DES_KS.t) :
  DES.__init__ None (DES.KsObject ks)
  = ok {| DES._rounds := DES_KS._rounds ks; DES._keySchedule := ks;
          DES._blocksize := 64 |}
  ∧ (∀ n : Z,
        n ≤ DES_KS._rounds ks →
        DES.__init__ (Some n) (DES.KsObject ks)
        = ok {| DES._rounds := n; DES._keySchedule := ks;
                DES._blocksize := 64 |})
  ∧ (∀ n : Z,
        DES_KS._rounds ks < n →
        DES.__init__ (Some n) (DES.KsObject ks)
        = raise (ValueError
            "number of rounds must be less or equal to the number of rounds of the key schedule")).
Proof.
  split_and!; [done| |]; intros n Hn; unfold DES.__init__; simpl.
  - destruct (Z.leb_spec n (DES_KS._rounds ks)); [done|lia].
  - destruct (Z.leb_spec n (DES_KS._rounds ks)); [lia|done].
Qed.

Lemma init_rounds_witness :
  DES.__init__ (Some 8) (DES.KsObject (DES_KS.new None None))
  = ok {| DES._rounds := 8; DES._keySchedule := DES_KS.new None None;
          DES._blocksize := 64 |}
  ∧ DES.__init__ (Some 17) (DES.KsObject (DES_KS.new None None))
    = raise (ValueError
        "number of rounds must be less or equal to the number of rounds of the key schedule").
Proof.
  split.
  - apply (proj1 (proj2 (init_rounds (DES_KS.new None None))) 8).
    simpl. lia.
  - apply (proj2 (proj2 (init_rounds (DES_KS.new None None))) 17).
    simpl. lia.
Defined.

(** ** Encryption and decryption *)

(** C1: decrypting the encryption of a block gives the block back.  The
    shipped bodies of [encrypt] and [decrypt] only raise
    [NotImplementedError]: on the block 0 and the key 0, with the default
    key schedule, the round trip raises instead of returning 0. *)
Theorem decrypt_encrypt_raises :
  ∃ des : DES.t,
    DES.__init__ None DES.KsNone = ok des
    ∧ (c ← DES.encrypt des (VInt 0) (VInt 0); DES.decrypt des c (VInt 0))
      = raise NotImplementedError
    ∧ (c ← DES.encrypt des (VInt 0) (VInt 0); DES.decrypt des c (VInt 0))
      ≠ ok (VInt 0).
Proof. eexists. split_and!; [reflexivity|reflexivity|discriminate]. Qed.

(** C2: the known answer for the plaintext 0 under the key 0 is
    0x8CA64DE9C1B123A7.  The shipped [encrypt] raises
    [NotImplementedError] on that plaintext, and the shipped [decrypt]
    does so on that ciphertext. *)
Theorem known_answer_raises :
  ∃ des : DES.t,
    DES.__init__ None DES.KsNone = ok des
    ∧ DES.encrypt des (VInt 0) (VInt 0) = raise NotImplementedError
    ∧ DES.encrypt des (VInt 0) (VInt 0) ≠ ok (VInt 0x8CA64DE9C1B123A7)
    ∧ DES.decrypt des (VInt 0x8CA64DE9C1B123A7) (VInt 0)
      = raise NotImplementedError
    ∧ DES.decrypt des (VInt 0x8CA64DE9C1B123A7) (VInt 0) ≠ ok (VInt 0).
Proof.
  eexists.
  split_and!; [reflexivity|reflexivity|discriminate|reflexivity|discriminate].
Qed.

(** ** Dispatch on the algorithm *)

(** C5: called with ["encrypt"] the cipher returns what [self.encrypt]
    does on the same block and key, with ["decrypt"] what [self.decrypt]
    does, and with any other string it raises [ValueError], the error the
    specification calls ConfigurationError; this for every block and key,
    and whatever the two methods are bound to. *)
Theorem call_dispatch `{DES.Bound} (self : DES.t) (B K : val) :
  DES.__call__ self B K "encrypt" = DES.self_encrypt self B K
  ∧ DES.__call__ self B K "decrypt" = DES.self_decrypt self B K
  ∧ (∀ algorithm : string,
        algorithm ≠ "encrypt" → algorithm ≠ "decrypt" →
        DES.__call__ self B K algorithm
        = raise (ValueError
            ("Algorithm must be 'encrypt' or 'decrypt' and not '"
             +:+ algorithm +:+ "'"))).
Proof.
  split_and!; [reflexivity|reflexivity|].
  intros algorithm Henc Hdec. unfold DES.__call__.
  apply String.eqb_neq in Henc, Hdec. by rewrite Henc, Hdec.
Qed.

Lemma call_dispatch_witness :
  DES.__call__ (H := DES.shipped)
    {| DES._rounds := 16; DES._keySchedule := DES_KS.new None None;
       DES._blocksize := 64 |} (VInt 0) (VInt 0) "ENCRYPT"
  = raise (ValueError
      "Algorithm must be 'encrypt' or 'decrypt' and not 'ENCRYPT'").
Proof.
  apply (proj2 (proj2 (call_dispatch (H := DES.shipped)
    {| DES._rounds := 16; DES._keySchedule := DES_KS.new None None;
       DES._blocksize := 64 |} (VInt 0) (VInt 0))) "ENCRYPT");
    discriminate.
Defined.

(** ** Round keys of a key schedule *)

(** A loop over [iter(l)] sees the elements of [l], in order. *)
Lemma consume_iter {A} (l : list A) : consume (S (length l)) (iter l) = Some l.
Proof.
  induction l as [|x l IH]; [done|].
  change (consume (S (length (x :: l))) (iter (x :: l)))
    with (cons x <$> consume (S (length l)) (iter l)).
  by rewrite IH.
Qed.

(** C6: on a key schedule built without a master key, indexing, at every
    index, and [iter] raise [ValueError], the error the specification
    calls ConfigurationError.  On one built with a master key, indexing at
    [r] is [self(master_key)[r]], and [iter] gives an iterator over the
    list [self(master_key)], which yields its elements in order; this
    whatever [self(...)] is bound to. *)
Theorem round_key_access `{DES_KS.Bound} (rounds : Z) :
  (∀ r : Z,
      DES_KS.__getitem__ (DES_KS.__init__ rounds VNone) r
      = raise (ValueError "Key not set during initialisation"))
  ∧ DES_KS.__iter__ (DES_KS.__init__ rounds VNone)
    = raise (ValueError "Key not set during initialisation")
  ∧ (∀ master_key : val,
        master_key ≠ VNone →
        let self := DES_KS.__init__ rounds master_key in
        (∀ r : Z,
            DES_KS.__getitem__ self r
            = (l ← DES_KS.self_call self master_key; getitem l r))
        ∧ DES_KS.__iter__ self
          = (l ← DES_KS.self_call self master_key; ok (iter l))
        ∧ (∀ l : list val,
              DES_KS.self_call self master_key = ok l →
              ∃ it, DES_KS.__iter__ self = ok it
                ∧ consume (S (length l)) it = Some l)).
Proof.
  split_and!; [done|done|].
  intros master_key Hkey self.
  assert (DES_KS.__iter__ self
          = (l ← DES_KS.self_call self master_key; ok (iter l))) as Hiter.
  { unfold DES_KS.__iter__. subst self. simpl. by destruct master_key. }
  split_and!; [|done|].
  - intros r. unfold DES_KS.__getitem__. subst self. simpl.
    by destruct master_key.
  - intros l Hl. exists (iter l). rewrite Hiter, Hl, bind_ok.
    split; [done|]. apply consume_iter.
Qed.

Lemma round_key_access_witness :
  DES_KS.__getitem__ (H := DES_KS.shipped) (DES_KS.__init__ 16 (VInt 0)) 0
  = (l ← DES_KS.__call__ (DES_KS.__init__ 16 (VInt 0)) (VInt 0); getitem l 0).
Proof.
  apply (proj1 (proj2 (proj2 (round_key_access (H := DES_KS.shipped) 16))
                 (VInt 0) ltac:(discriminate)) 0).
Defined.

(** ** Sample evaluations *)

Example left_shift_index_17 :
  DES_KS._left_shift (DES_KS.new None None) [true; true; false] 17
  = raise (IndexError "list index out of range").
Proof. reflexivity. Qed.

Example eq_sample :
  DES.__eq__ (DES.mk 16 (DES_KS.mk 16 VNone) 64)
    (DES.Instance (DES.mk 16 (DES_KS.mk 16 VNone) 64)) = true
  ∧ DES.__eq__ (DES.mk 16 (DES_KS.mk 16 VNone) 64)
      (DES.Instance (DES.mk 16 (DES_KS.mk 16 (VInt 0)) 64)) = false.
Proof. split; vm_compute; reflexivity. Qed.

Example getitem_shipped :
  DES_KS.__getitem__ (DES_KS.__init__ 16 (VInt 0)) 0 = raise NotImplementedError.
Proof. reflexivity. Qed.

(** * Further properties of the code *)

(** ** The rotation, whatever the round index *)

Section rotation.
Context {A : Type}.
Implicit Types (l : list A) (a b : nat).

Lemma rot_perm l a : drop a l ++ take a l ≡ₚ l.
Proof. rewrite Permutation_app_comm. by rewrite take_drop. Qed.

(** Two rotations in a row, as long as they do not go round the list. *)
Lemma rot_rot l a b :
  (b + a ≤ length l)%nat →
  drop a (drop b l ++ take b l) ++ take a (drop b l ++ take b l)
  = drop (b + a) l ++ take (b + a) l.
Proof.
  intros Hle.
  rewrite drop_app_le, take_app_le by (rewrite length_drop; lia).
  by rewrite drop_drop, <-(assoc_L (++)), take_take_drop.
Qed.

(** On at most one element every rotation is the identity. *)
Lemma rot_short l a : (length l ≤ 1)%nat → drop a l ++ take a l = l.
Proof.
  intros Hl. destruct l as [|x [|y l]]; simpl in Hl; [| |lia].
  - by rewrite drop_nil, take_nil.
  - destruct a; [done|]. simpl. by rewrite drop_nil, take_nil.
Qed.

End rotation.

(** The table read at [i - 1]: an entry for the indices from -15 to 16,
    [IndexError] for the others. *)
Lemma amount_in_range (i : Z) :
  -15 ≤ i ≤ 16 →
  ∃ a : Z, (a = 1 ∨ a = 2)
    ∧ getitem [1; 1; 2; 2; 2; 2; 2; 2; 1; 2; 2; 2; 2; 2; 2; 1] (i - 1) = ok a.
Proof.
  intros Hi.
  assert (∃ k : nat, (k < 32)%nat ∧ i = Z.of_nat k - 15) as (k & Hk & ->).
  { exists (Z.to_nat (i + 15)). lia. }
  do 32 (destruct k as [|k]; [eexists; split; [|reflexivity]; auto|]).
  lia.
Qed.

Lemma maxsize_eq : maxsize = 9223372036854775807.
Proof. reflexivity. Qed.

Lemma amount_out_of_range (i : Z) :
  i < -15 ∨ 16 < i →
  - maxsize - 1 ≤ i - 1 ≤ maxsize →
  getitem [1; 1; 2; 2; 2; 2; 2; 2; 1; 2; 2; 2; 2; 2; 2; 1] (i - 1)
  = raise (IndexError "list index out of range").
Proof.
  intros Hi Hfit. unfold getitem.
  change (Z.of_nat (length _)) with 16.
  destruct (Z.ltb_spec (i - 1) (- maxsize - 1)); [lia|].
  destruct (Z.ltb_spec maxsize (i - 1)); [lia|].
  destruct (Z.ltb_spec (i - 1) 0).
  - destruct (Z.ltb_spec (i - 1 + 16) 0); [done|lia].
  - destruct (Z.ltb_spec (i - 1) 0); [lia|].
    destruct (Z.leb_spec 16 (i - 1)); [done|lia].
Qed.

Lemma amount_not_index_sized (i : Z) :
  i - 1 < - maxsize - 1 ∨ maxsize < i - 1 →
  getitem [1; 1; 2; 2; 2; 2; 2; 2; 1; 2; 2; 2; 2; 2; 2; 1] (i - 1)
  = raise (IndexError "cannot fit 'int' into an index-sized integer").
Proof.
  intros Hi. unfold getitem.
  change (Z.of_nat (length _)) with 16.
  pose proof maxsize_eq as Hmax.
  assert ((i - 1 <? - maxsize - 1) || (maxsize <? i - 1) = true) as ->.
  { apply orb_true_iff. rewrite Z.ltb_lt, Z.ltb_lt. lia. }
  destruct (Z.ltb_spec (i - 1) 0).
  - destruct (Z.ltb_spec (i - 1 + 16) 0); [done|lia].
  - destruct (Z.ltb_spec (i - 1) 0); [lia|].
    destruct (Z.leb_spec 16 (i - 1)); [done|lia].
Qed.

Lemma left_shift_in_range (self : DES_KS.t) (H : list bool) (i : Z) :
  -15 ≤ i ≤ 16 →
  ∃ a : nat, (a = 1 ∨ a = 2)%nat
    ∧ DES_KS._left_shift self H i = ok (drop a H ++ take a H).
Proof.
  intros Hi. destruct (amount_in_range i Hi) as (a & [-> | ->] & Hget).
  - exists 1%nat. split; [by left|]. by apply (left_shift_by _ _ _ 1).
  - exists 2%nat. split; [by right|]. by apply (left_shift_by _ _ _ 2).
Qed.

Lemma left_shift_out_of_range (self : DES_KS.t) (H : list bool) (i : Z) :
  i < -15 ∨ 16 < i →
  - maxsize - 1 ≤ i - 1 ≤ maxsize →
  DES_KS._left_shift self H i = raise (IndexError "list index out of range").
Proof.
  intros Hi Hfit. unfold DES_KS._left_shift. cbv zeta.
  by rewrite (amount_out_of_range i Hi Hfit), bind_raise.
Qed.

Lemma left_shift_not_index_sized (self : DES_KS.t) (H : list bool) (i : Z) :
  i - 1 < - maxsize - 1 ∨ maxsize < i - 1 →
  DES_KS._left_shift self H i
  = raise (IndexError "cannot fit 'int' into an index-sized integer").
Proof.
  intros Hi. unfold DES_KS._left_shift. cbv zeta.
  by rewrite (amount_not_index_sized i Hi), bind_raise.
Qed.

Lemma left_shift_inv (self : DES_KS.t) (H v : list bool) (i : Z) :
  DES_KS._left_shift self H i = ok v →
  -15 ≤ i ≤ 16
  ∧ ∃ a : nat, (a = 1 ∨ a = 2)%nat ∧ v = drop a H ++ take a H.
Proof.
  intros Hv. destruct (decide (-15 ≤ i ≤ 16)) as [Hi|Hi].
  - split; [done|].
    destruct (left_shift_in_range self H i Hi) as (a & Ha & Hrun).
    exists a. split; [done|]. rewrite Hrun in Hv. by injection Hv as <-.
  - destruct (decide (- maxsize - 1 ≤ i - 1 ≤ maxsize)) as [Hfit|Hfit].
    + rewrite left_shift_out_of_range in Hv by (done || lia). discriminate.
    + rewrite left_shift_not_index_sized in Hv by lia. discriminate.
Qed.

(** X1: the method returns for the round indices from -15 to 16, and for
    no other.  Outside that range the lookup in the table of 16 amounts
    raises [IndexError]: "list index out of range" as long as [i - 1] is
    an index-sized integer, and "cannot fit 'int' into an index-sized
    integer" beyond. *)
Theorem left_shift_defined (self : DES_KS.t) (H : list bool) (i : Z) :
  (-15 ≤ i ≤ 16 → ∃ v, DES_KS._left_shift self H i = ok v)
  ∧ (i < -15 ∨ 16 < i →
     - maxsize - 1 ≤ i - 1 ≤ maxsize →
     DES_KS._left_shift self H i
     = raise (IndexError "list index out of range"))
  ∧ (i - 1 < - maxsize - 1 ∨ maxsize < i - 1 →
     DES_KS._left_shift self H i
     = raise (IndexError "cannot fit 'int' into an index-sized integer")).
Proof.
  split_and!.
  - intros Hi. destruct (left_shift_in_range self H i Hi) as (a & _ & ->).
    by eexists.
  - apply left_shift_out_of_range.
  - apply left_shift_not_index_sized.
Qed.

Lemma left_shift_defined_witness :
  (∃ v, DES_KS._left_shift (DES_KS.new None None) [true; false] (-15) = ok v)
  ∧ DES_KS._left_shift (DES_KS.new None None) [true; false] 17
    = raise (IndexError "list index out of range")
  ∧ DES_KS._left_shift (DES_KS.new None None) [true; false] (2 ^ 63 + 1)
    = raise (IndexError "cannot fit 'int' into an index-sized integer").
Proof.
  split_and!.
  - apply (proj1 (left_shift_defined (DES_KS.new None None) [true; false] (-15))).
    lia.
  - apply (proj1 (proj2 (left_shift_defined (DES_KS.new None None)
                           [true; false] 17))); vm_compute; intuition discriminate.
  - apply (proj2 (proj2 (left_shift_defined (DES_KS.new None None)
                           [true; false] (2 ^ 63 + 1)))).
    right. reflexivity.
Defined.

(** X2: a round index from -15 to 0 is taken for the round 16 places
    further: the table is read from its end, so [i - 16] rotates as round
    [i] does. *)
Theorem left_shift_negative_index (self : DES_KS.t) (H : list bool) (i : Z) :
  1 ≤ i ≤ 16 →
  DES_KS._left_shift self H (i - 16) = DES_KS._left_shift self H i.
Proof.
  intros Hi. unfold DES_KS._left_shift. cbv zeta.
  assert (∃ k : nat, (k < 16)%nat ∧ i = Z.of_nat k + 1) as (k & Hk & ->).
  { exists (Z.to_nat (i - 1)). lia. }
  do 16 (destruct k as [|k]; [reflexivity|]). lia.
Qed.

Lemma left_shift_negative_index_witness :
  DES_KS._left_shift (DES_KS.new None None) [true; true; false] (3 - 16)
  = DES_KS._left_shift (DES_KS.new None None) [true; true; false] 3.
Proof.
  apply (left_shift_negative_index (DES_KS.new None None) [true; true; false] 3).
  lia.
Defined.

(** X3: whenever the method returns, the result has the bits of the half,
    each as many times, in another order: no bit is lost or added, and the
    length is the same. *)
Theorem left_shift_permutation (self : DES_KS.t) (H v : list bool) (i : Z) :
  DES_KS._left_shift self H i = ok v → v ≡ₚ H ∧ length v = length H.
Proof.
  intros Hv. apply left_shift_inv in Hv as (_ & a & _ & ->).
  assert (drop a H ++ take a H ≡ₚ H) as Hperm by apply rot_perm.
  split; [done|]. by rewrite Hperm.
Qed.

Lemma left_shift_permutation_witness :
  [false; true; true] ≡ₚ [true; false; true]
  ∧ length [false; true; true] = length [true; false; true].
Proof.
  apply (left_shift_permutation (DES_KS.new None None)
           [true; false; true] [false; true; true] 1).
  reflexivity.
Defined.

(** X4: read by position, the rotation by [a] places puts at [j] the bit
    that stood at [(j + a) mod L], [L] being the length of the half and
    [a] the amount of the round, 1 or 2. *)
Theorem left_shift_lookup (self : DES_KS.t) (H v : list bool) (i : Z) :
  DES_KS._left_shift self H i = ok v →
  ∃ a : nat, (a = 1 ∨ a = 2)%nat
    ∧ ∀ j : nat, (j < length H)%nat →
        v !! j = H !! ((j + a) `mod` length H)%nat.
Proof.
  intros Hv. apply left_shift_inv in Hv as (_ & a & Ha & ->).
  exists a. split; [done|]. intros j Hj.
  destruct (decide (length H ≤ 1)%nat) as [Hshort|Hlong].
  { rewrite rot_short by done.
    assert (length H = 1%nat) as -> by lia.
    rewrite Nat.mod_1_r. by replace j with 0%nat by lia. }
  destruct (decide (j + a < length H)%nat) as [Hlt|Hge].
  - rewrite Nat.mod_small by done.
    rewrite lookup_app_l by (rewrite length_drop; lia).
    rewrite lookup_drop. f_equal. lia.
  - rewrite lookup_app_r by (rewrite length_drop; lia).
    rewrite length_drop, lookup_take_lt by lia.
    f_equal. apply (Nat.mod_unique _ _ 1); lia.
Qed.

Lemma left_shift_lookup_witness :
  ∃ a : nat, (a = 1 ∨ a = 2)%nat
    ∧ ∀ j : nat, (j < length [true; false; false])%nat →
        [false; false; true] !! j
        = [true; false; false] !! ((j + a) `mod` length [true; false; false])%nat.
Proof.
  apply (left_shift_lookup (DES_KS.new None None)
           [true; false; false] [false; false; true] 1).
  reflexivity.
Defined.

(** X5: a round that shifts by two places does what two rounds that shift
    by one place do, one after the other. *)
Theorem left_shift_two_steps (self : DES_KS.t) (H : list bool) (i j k : Z) :
  i ∈ [1; 2; 9; 16] → j ∈ [1; 2; 9; 16] →
  k ∈ [3; 4; 5; 6; 7; 8; 10; 11; 12; 13; 14; 15] →
  (h ← DES_KS._left_shift self H i; DES_KS._left_shift self h j)
  = DES_KS._left_shift self H k.
Proof.
  intros Hi Hj Hk.
  assert (∀ (h : list bool) (r : Z), r ∈ [1; 2; 9; 16] →
            DES_KS._left_shift self h r = ok (drop 1 h ++ take 1 h)) as Hone.
  { intros h r Hr. repeat (apply elem_of_cons in Hr as [->|Hr]);
      [by apply (left_shift_by _ _ _ 1)..|by apply elem_of_nil in Hr]. }
  assert (DES_KS._left_shift self H k = ok (drop 2 H ++ take 2 H)) as ->.
  { repeat (apply elem_of_cons in Hk as [->|Hk]);
      [by apply (left_shift_by _ _ _ 2)..|by apply elem_of_nil in Hk]. }
  rewrite (Hone H i Hi), bind_ok, (Hone _ j Hj). f_equal.
  destruct (decide (length H ≤ 1)%nat) as [Hshort|Hlong].
  - by rewrite !rot_short by (rewrite ?rot_short; done).
  - apply (rot_rot H 1 1). lia.
Qed.

Lemma left_shift_two_steps_witness :
  (h ← DES_KS._left_shift (DES_KS.new None None) [true; false; false] 1;
   DES_KS._left_shift (DES_KS.new None None) h 9)
  = DES_KS._left_shift (DES_KS.new None None) [true; false; false] 3.
Proof.
  apply (left_shift_two_steps (DES_KS.new None None) [true; false; false] 1 9 3);
    set_solver.
Defined.

(** One round on a half of which [c] places have been rotated already. *)
Lemma left_shift_step (self : DES_KS.t) (H : list bool) (c : nat) (i a : Z) :
  getitem [1; 1; 2; 2; 2; 2; 2; 2; 1; 2; 2; 2; 2; 2; 2; 1] (i - 1) = ok a →
  0 ≤ a → (c + Z.to_nat a ≤ length H)%nat →
  DES_KS._left_shift self (drop c H ++ take c H) i
  = ok (drop (c + Z.to_nat a) H ++ take (c + Z.to_nat a) H).
Proof.
  intros Hget Ha Hlen. rewrite (left_shift_by _ _ _ a) by done.
  f_equal. by apply rot_rot.
Qed.

(** X6: the amounts of the 16 rounds add up to 28: carried out for the
    rounds 1 to 16 in turn, the rotation brings a half of 28 bits back to
    where it started. *)
Theorem left_shift_all_rounds (self : DES_KS.t) (H : list bool) :
  length H = 28%nat →
  foldl (λ acc i, h ← acc; DES_KS._left_shift self h i) (ok H) (seqZ 1 16)
  = ok H.
Proof.
  intros Hlen.
  let rounds := eval vm_compute in (seqZ 1 16) in
  change (seqZ 1 16) with rounds.
  cbn [foldl].
  replace (ok H) with (ok (drop 0 H ++ take 0 H) : result (list bool)) at 1
    by (by rewrite drop_0, take_0, app_nil_r).
  repeat (rewrite bind_ok;
          first [ rewrite (left_shift_step self H _ _ 1)
                    by first [reflexivity | lia | (rewrite Hlen; simpl; lia)]
                | rewrite (left_shift_step self H _ _ 2)
                    by first [reflexivity | lia | (rewrite Hlen; simpl; lia)] ]).
  match goal with
  | |- context [drop ?n H] =>
      replace n with (length H) by (rewrite Hlen; reflexivity)
  end.
  by rewrite drop_all, firstn_all.
Qed.

Lemma left_shift_all_rounds_witness :
  foldl (λ acc i, h ← acc; DES_KS._left_shift (DES_KS.new None None) h i)
    (ok (true :: replicate 27 false)) (seqZ 1 16)
  = ok (true :: replicate 27 false).
Proof.
  apply (left_shift_all_rounds (DES_KS.new None None) (true :: replicate 27 false)).
  reflexivity.
Defined.

(** X7: a half with no bit or a single bit comes back as it is, for every
    round index for which the method returns. *)
Theorem left_shift_short (self : DES_KS.t) (H : list bool) (i : Z) :
  (length H ≤ 1)%nat → -15 ≤ i ≤ 16 →
  DES_KS._left_shift self H i = ok H.
Proof.
  intros Hlen Hi.
  destruct (left_shift_in_range self H i Hi) as (a & _ & ->).
  by rewrite rot_short.
Qed.

Lemma left_shift_short_witness :
  DES_KS._left_shift (DES_KS.new None None) [] 5 = ok [].
Proof.
  apply (left_shift_short (DES_KS.new None None) [] 5); simpl; lia.
Defined.

(** X8: two calls on the same half return two different vectors, neither
    of them the half, both with the rotated bits; the half is still what
    it was after the second call. *)
Theorem left_shift_ref_twice (self : DES_KS.t) (σ : gmap positive object)
    (half : positive) (o : object) (i : Z) (v : list bool) :
  σ !! half = Some o →
  DES_KS._left_shift self (contents o) i = ok v →
  ∃ σ1 q1 σ2 q2,
    DES_KS._left_shift_ref self half i σ = Some (σ1, ok q1)
    ∧ DES_KS._left_shift_ref self half i σ1 = Some (σ2, ok q2)
    ∧ q1 ≠ q2 ∧ q1 ≠ half ∧ q2 ≠ half
    ∧ σ2 !! q1 = Some (Vector v) ∧ σ2 !! q2 = Some (Vector v)
    ∧ σ2 !! half = Some o.
Proof.
  intros Hhalf Hv.
  pose proof (left_shift_ref_run self σ half o i Hhalf) as Hrun1.
  rewrite Hv in Hrun1. destruct Hrun1 as (σ1 & q1 & Hrun1 & Hsub1 & Hq1 & Hv1).
  assert (σ1 !! half = Some o) as Hhalf1 by (by eapply lookup_weaken).
  pose proof (left_shift_ref_run self σ1 half o i Hhalf1) as Hrun2.
  rewrite Hv in Hrun2. destruct Hrun2 as (σ2 & q2 & Hrun2 & Hsub2 & Hq2 & Hv2).
  exists σ1, q1, σ2, q2. split_and!; try done; try congruence.
  - by eapply lookup_weaken.
  - by eapply lookup_weaken.
Qed.

Lemma left_shift_ref_twice_witness :
  ∃ σ1 q1 σ2 q2,
    DES_KS._left_shift_ref (DES_KS.new None None) 1%positive 1
      {[ 1%positive := Vector [true; false] ]} = Some (σ1, ok q1)
    ∧ DES_KS._left_shift_ref (DES_KS.new None None) 1%positive 1 σ1
      = Some (σ2, ok q2)
    ∧ q1 ≠ q2 ∧ q1 ≠ 1%positive ∧ q2 ≠ 1%positive
    ∧ σ2 !! q1 = Some (Vector [false; true])
    ∧ σ2 !! q2 = Some (Vector [false; true])
    ∧ σ2 !! 1%positive = Some (Vector [true; false]).
Proof.
  apply (left_shift_ref_twice (DES_KS.new None None)
           {[ 1%positive := Vector [true; false] ]} 1%positive
           (Vector [true; false]) 1 [false; true]); reflexivity.
Defined.

(** ** Construction and equality of instances *)

(** X9: every cipher the constructor returns has a block size of 64 and
    at most as many rounds as its key schedule; its key schedule is the
    one passed, or the default one of 16 rounds without a master key when
    [None] is passed; the constructor never returns when [False] is. *)
Theorem init_invariant (rounds : option Z) (keySchedule : DES.keySchedule_arg)
    (d : DES.t) :
  DES.__init__ rounds keySchedule = ok d →
  DES._blocksize d = 64
  ∧ DES._rounds d ≤ DES_KS._rounds (DES._keySchedule d)
  ∧ keySchedule ≠ DES.KsFalse
  ∧ (keySchedule = DES.KsNone →
     DES._keySchedule d = DES_KS.__init__ 16 VNone)
  ∧ (∀ ks, keySchedule = DES.KsObject ks → DES._keySchedule d = ks).
Proof.
  unfold DES.__init__.
  destruct keySchedule as [| |ks], rounds as [n|]; simpl;
    try discriminate;
    repeat match goal with
           | |- context [?x <=? ?y] => destruct (Z.leb_spec x y)
           end;
    try discriminate;
    intros [= <-]; simpl; split_and!; try done; try lia;
    intros; congruence.
Qed.

Lemma init_invariant_witness :
  DES._blocksize (DES.mk 8 (DES_KS.mk 16 VNone) 64) = 64
  ∧ DES._rounds (DES.mk 8 (DES_KS.mk 16 VNone) 64)
    ≤ DES_KS._rounds (DES._keySchedule (DES.mk 8 (DES_KS.mk 16 VNone) 64))
  ∧ DES.KsNone ≠ DES.KsFalse
  ∧ (DES.KsNone = DES.KsNone →
     DES._keySchedule (DES.mk 8 (DES_KS.mk 16 VNone) 64)
     = DES_KS.__init__ 16 VNone)
  ∧ (∀ ks, DES.KsNone = DES.KsObject ks →
       DES._keySchedule (DES.mk 8 (DES_KS.mk 16 VNone) 64) = ks).
Proof.
  apply (init_invariant (Some 8) DES.KsNone (DES.mk 8 (DES_KS.mk 16 VNone) 64)).
  reflexivity.
Defined.

(** X10: on the instances of either class [==] is reflexive and
    symmetric: every instance equals itself, and two instances compare
    the same way in either order. *)
Theorem eq_reflexive_symmetric :
  Reflexive (λ a b : DES_KS.t, DES_KS.__eq__ a (DES_KS.Instance b) = true)
  ∧ Symmetric (λ a b : DES_KS.t, DES_KS.__eq__ a (DES_KS.Instance b) = true)
  ∧ Reflexive (λ a b : DES.t, DES.__eq__ a (DES.Instance b) = true)
  ∧ Symmetric (λ a b : DES.t, DES.__eq__ a (DES.Instance b) = true).
Proof.
  assert (∀ a, DES_KS.__eq__ a (DES_KS.Instance a) = true) as Hrefl.
  { intros a. apply DES_KS_eq_spec. split; [done|apply val_eqb_refl]. }
  assert (∀ a b, DES_KS.__eq__ a (DES_KS.Instance b) = true →
                 DES_KS.__eq__ b (DES_KS.Instance a) = true) as Hsym.
  { intros a b Hab. apply DES_KS_eq_spec. apply DES_KS_eq_spec in Hab.
    destruct Hab as [Hr Hk]. split; [done|]. by rewrite val_eqb_sym. }
  split_and!.
  - exact Hrefl.
  - exact Hsym.
  - intros a. apply DES_eq_spec. split_and!; [done|apply Hrefl|done].
  - intros a b Hab. apply DES_eq_spec. apply DES_eq_spec in Hab.
    destruct Hab as (Hr & Hk & Hn). split_and!; [done|by apply Hsym|done].
Qed.

(** X11: two ciphers that the constructor returned are equal exactly when
    they have the same rounds and the same key schedule: the block size,
    64 for both, never tells them apart. *)
Theorem eq_constructed (rounds1 rounds2 : option Z)
    (keySchedule1 keySchedule2 : DES.keySchedule_arg) (d1 d2 : DES.t) :
  DES.__init__ rounds1 keySchedule1 = ok d1 →
  DES.__init__ rounds2 keySchedule2 = ok d2 →
  DES.__eq__ d1 (DES.Instance d2) = true
  ↔ DES._rounds d1 = DES._rounds d2
    ∧ DES_KS.__eq__ (DES._keySchedule d1)
        (DES_KS.Instance (DES._keySchedule d2)) = true.
Proof.
  intros H1 H2.
  assert (∀ r k d, DES.__init__ r k = ok d → DES._blocksize d = 64) as Hsize.
  { intros r k d. unfold DES.__init__.
    destruct k as [| |ks], r as [n|]; simpl; try discriminate;
      repeat match goal with
             | |- context [?x <=? ?y] => destruct (Z.leb_spec x y)
             end;
      try discriminate; by intros [= <-]. }
  apply Hsize in H1, H2.
  rewrite DES_eq_spec. split.
  - intros (Hr & Hk & _). split; assumption.
  - intros [Hr Hk]. split_and!; [assumption|assumption|congruence].
Qed.

Lemma eq_constructed_witness :
  DES.__eq__ (DES.mk 16 (DES_KS.mk 16 VNone) 64)
    (DES.Instance (DES.mk 8 (DES_KS.mk 16 VNone) 64)) = true
  ↔ DES._rounds (DES.mk 16 (DES_KS.mk 16 VNone) 64)
    = DES._rounds (DES.mk 8 (DES_KS.mk 16 VNone) 64)
    ∧ DES_KS.__eq__ (DES._keySchedule (DES.mk 16 (DES_KS.mk 16 VNone) 64))
        (DES_KS.Instance (DES._keySchedule (DES.mk 8 (DES_KS.mk 16 VNone) 64)))
      = true.
Proof.
  apply (eq_constructed None (Some 8) DES.KsNone DES.KsNone); reflexivity.
Defined.

(** ** What the shipped classes cannot do *)

(** X12: the representation of a key schedule cannot be had: [__repr__]
    reads an attribute [_keysize] that [__init__] never sets, and raises
    [AttributeError] on every instance. *)
Theorem repr_raises (self : DES_KS.t) :
  DES_KS.__repr__ self
  = raise (AttributeError "'DES_KS' object has no attribute '_keysize'").
Proof.
  assert (DES_KS.getattr self "_keysize"
          = raise (AttributeError "'DES_KS' object has no attribute '_keysize'"))
    as Hkeysize.
  { unfold DES_KS.getattr, DES_KS.__dict__.
    rewrite !lookup_insert_ne by done. by rewrite lookup_empty. }
  unfold DES_KS.__repr__. by rewrite Hkeysize.
Qed.

(** X13: with the methods of the shipped class, calling the cipher never
    returns a block: for the algorithms ["encrypt"] and ["decrypt"] it
    raises [NotImplementedError], whatever the block and the key, and for
    any other algorithm [ValueError]. *)
Theorem call_shipped_raises (self : DES.t) (B K : val) (algorithm : string) :
  (algorithm = "encrypt" ∨ algorithm = "decrypt" →
   DES.__call__ (H := DES.shipped) self B K algorithm
   = raise NotImplementedError)
  ∧ (algorithm ≠ "encrypt" → algorithm ≠ "decrypt" →
     DES.__call__ (H := DES.shipped) self B K algorithm
     = raise (ValueError
         ("Algorithm must be 'encrypt' or 'decrypt' and not '"
          +:+ algorithm +:+ "'"))).
Proof.
  split.
  - intros [-> | ->]; reflexivity.
  - intros Henc Hdec. unfold DES.__call__.
    apply String.eqb_neq in Henc, Hdec. by rewrite Henc, Hdec.
Qed.

Lemma call_shipped_raises_witness :
  DES.__call__ (H := DES.shipped) (DES.mk 16 (DES_KS.mk 16 VNone) 64)
    (VInt 0) (VInt 0) "decrypt" = raise NotImplementedError
  ∧ DES.__call__ (H := DES.shipped) (DES.mk 16 (DES_KS.mk 16 VNone) 64)
      (VInt 0) (VInt 0) "decode"
    = raise (ValueError
        "Algorithm must be 'encrypt' or 'decrypt' and not 'decode'").
Proof.
  split.
  - apply (proj1 (call_shipped_raises (DES.mk 16 (DES_KS.mk 16 VNone) 64)
                    (VInt 0) (VInt 0) "decrypt")).
    right. reflexivity.
  - apply (proj2 (call_shipped_raises (DES.mk 16 (DES_KS.mk 16 VNone) 64)
                    (VInt 0) (VInt 0) "decode")); discriminate.
Defined.

(** X14: with the methods of the shipped class, a key schedule never gives
    a round key: without a master key indexing, at every index, and
    iteration raise [ValueError]; with a master key both raise
    [NotImplementedError]. *)
Theorem round_keys_shipped_raise (self : DES_KS.t) :
  (DES_KS._master_key self = VNone →
   (∀ r : Z,
       DES_KS.__getitem__ (H := DES_KS.shipped) self r
       = raise (ValueError "Key not set during initialisation"))
   ∧ DES_KS.__iter__ (H := DES_KS.shipped) self
     = raise (ValueError "Key not set during initialisation"))
  ∧ (DES_KS._master_key self ≠ VNone →
     (∀ r : Z,
         DES_KS.__getitem__ (H := DES_KS.shipped) self r
         = raise NotImplementedError)
     ∧ DES_KS.__iter__ (H := DES_KS.shipped) self = raise NotImplementedError).
Proof.
  unfold DES_KS.__getitem__, DES_KS.__iter__.
  split; intros Hkey; (split; [intros r|]);
    destruct (DES_KS._master_key self); done.
Qed.

Lemma round_keys_shipped_raise_witness :
  DES_KS.__getitem__ (H := DES_KS.shipped) (DES_KS.__init__ 16 VNone) 3
  = raise (ValueError "Key not set during initialisation")
  ∧ DES_KS.__getitem__ (H := DES_KS.shipped) (DES_KS.__init__ 16 (VInt 0)) 3
    = raise NotImplementedError.
Proof.
  split.
  - apply (proj1 (proj1 (round_keys_shipped_raise (DES_KS.__init__ 16 VNone))
                    eq_refl) 3).
  - apply (proj1 (proj2 (round_keys_shipped_raise (DES_KS.__init__ 16 (VInt 0)))
                    ltac:(discriminate)) 3).
Defined.

(** ** Round keys by index, once the key schedule computes them *)

Section indexing.
Context {A : Type}.
Implicit Types (l : list A) (r : Z).

Lemma getitem_at l r x :
  0 ≤ r → l !! Z.to_nat r = Some x → getitem l r = ok x.
Proof.
  intros Hr Hx. apply lookup_lt_Some in Hx as Hlt. unfold getitem.
  destruct (Z.ltb_spec r 0); [lia|].
  destruct (Z.ltb_spec r 0); [lia|].
  destruct (Z.leb_spec (Z.of_nat (length l)) r); [lia|].
  simpl. by rewrite Hx.
Qed.

Lemma getitem_from_end l r :
  - Z.of_nat (length l) ≤ r < 0 →
  getitem l r = getitem l (r + Z.of_nat (length l)).
Proof.
  intros Hr. unfold getitem.
  destruct (Z.ltb_spec r 0); [|lia].
  destruct (Z.ltb_spec (r + Z.of_nat (length l)) 0); [lia|].
  destruct (Z.ltb_spec (r + Z.of_nat (length l)) 0); [lia|].
  destruct (Z.leb_spec (Z.of_nat (length l)) (r + Z.of_nat (length l)));
    [lia|done].
Qed.

Lemma getitem_outside l r :
  r < - Z.of_nat (length l) ∨ Z.of_nat (length l) ≤ r →
  - maxsize - 1 ≤ r ≤ maxsize →
  getitem l r = raise (IndexError "list index out of range").
Proof.
  intros Hr Hfit. unfold getitem.
  destruct (Z.ltb_spec r (- maxsize - 1)); [lia|].
  destruct (Z.ltb_spec maxsize r); [lia|].
  destruct (Z.ltb_spec r 0).
  - destruct (Z.ltb_spec (r + Z.of_nat (length l)) 0); [done|lia].
  - destruct (Z.ltb_spec r 0); [lia|].
    destruct (Z.leb_spec (Z.of_nat (length l)) r); [done|lia].
Qed.

Lemma getitem_not_index_sized l r :
  Z.of_nat (length l) ≤ maxsize →
  r < - maxsize - 1 ∨ maxsize < r →
  getitem l r = raise (IndexError "cannot fit 'int' into an index-sized integer").
Proof.
  intros Hlen Hr. unfold getitem.
  assert ((r <? - maxsize - 1) || (maxsize <? r) = true) as ->.
  { apply orb_true_iff. rewrite Z.ltb_lt, Z.ltb_lt. lia. }
  destruct (Z.ltb_spec r 0).
  - destruct (Z.ltb_spec (r + Z.of_nat (length l)) 0); [done|lia].
  - destruct (Z.ltb_spec r 0); [lia|].
    destruct (Z.leb_spec (Z.of_nat (length l)) r); [done|lia].
Qed.

End indexing.

Lemma getitem_of_call `{DES_KS.Bound} (self : DES_KS.t) (l : list val) (r : Z) :
  DES_KS._master_key self ≠ VNone →
  DES_KS.self_call self (DES_KS._master_key self) = ok l →
  DES_KS.__getitem__ self r = getitem l r.
Proof.
  intros Hkey Hcall. unfold DES_KS.__getitem__.
  destruct (DES_KS._master_key self) eqn:Hk; [done| |];
    by rewrite Hcall, bind_ok.
Qed.

(** X15: on a key schedule with a master key whose call returns the list
    [l] of round keys, an index from 0 gives the round key at that place
    and a negative index down to minus the number of round keys counts
    from the end.  Any other index raises [IndexError]: "list index out
    of range" for an index-sized integer, "cannot fit 'int' into an
    index-sized integer" beyond.  The list is one Python can hold, of at
    most [maxsize] entries. *)
Theorem getitem_bounds `{DES_KS.Bound} (self : DES_KS.t) (l : list val) :
  DES_KS._master_key self ≠ VNone →
  DES_KS.self_call self (DES_KS._master_key self) = ok l →
  Z.of_nat (length l) ≤ maxsize →
  (∀ (r : Z) (k : val),
      0 ≤ r → l !! Z.to_nat r = Some k → DES_KS.__getitem__ self r = ok k)
  ∧ (∀ r : Z,
        - Z.of_nat (length l) ≤ r < 0 →
        DES_KS.__getitem__ self r
        = DES_KS.__getitem__ self (r + Z.of_nat (length l)))
  ∧ (∀ r : Z,
        r < - Z.of_nat (length l) ∨ Z.of_nat (length l) ≤ r →
        - maxsize - 1 ≤ r ≤ maxsize →
        DES_KS.__getitem__ self r
        = raise (IndexError "list index out of range"))
  ∧ (∀ r : Z,
        r < - maxsize - 1 ∨ maxsize < r →
        DES_KS.__getitem__ self r
        = raise (IndexError "cannot fit 'int' into an index-sized integer")).
Proof.
  intros Hkey Hcall Hlen. split_and!; intros r.
  - intros k Hr Hk. rewrite (getitem_of_call self l) by done.
    by apply getitem_at.
  - intros Hr. rewrite !(getitem_of_call self l) by done.
    by apply getitem_from_end.
  - intros Hr Hfit. rewrite (getitem_of_call self l) by done.
    by apply getitem_outside.
  - intros Hr. rewrite (getitem_of_call self l) by done.
    by apply getitem_not_index_sized.
Qed.

Lemma getitem_bounds_witness :
  DES_KS.__getitem__ (H := λ _ _, ok [VInt 5; VInt 7])
    (DES_KS.__init__ 2 (VInt 0)) (-1)
  = DES_KS.__getitem__ (H := λ _ _, ok [VInt 5; VInt 7])
      (DES_KS.__init__ 2 (VInt 0)) (-1 + 2)
  ∧ DES_KS.__getitem__ (H := λ _ _, ok [VInt 5; VInt 7])
      (DES_KS.__init__ 2 (VInt 0)) 2
    = raise (IndexError "list index out of range")
  ∧ DES_KS.__getitem__ (H := λ _ _, ok [VInt 5; VInt 7])
      (DES_KS.__init__ 2 (VInt 0)) (2 ^ 64)
    = raise (IndexError "cannot fit 'int' into an index-sized integer").
Proof.
  pose proof (getitem_bounds (H := λ _ _, ok [VInt 5; VInt 7])
                (DES_KS.__init__ 2 (VInt 0)) [VInt 5; VInt 7]
                ltac:(discriminate) eq_refl ltac:(discriminate))
    as (_ & Hneg & Hout & Hbig).
  split_and!.
  - apply (Hneg (-1)). simpl. lia.
  - apply (Hout 2); vm_compute; intuition discriminate.
  - apply (Hbig (2 ^ 64)). right. reflexivity.
Defined.

(** X16: on such a key schedule, what iteration yields is what indexing
    gives: the round keys at the indices 0, 1, 2, ... in turn, as many as
    the call returned. *)
Theorem iter_agrees_with_getitem `{DES_KS.Bound} (self : DES_KS.t)
    (l : list val) :
  DES_KS._master_key self ≠ VNone →
  DES_KS.self_call self (DES_KS._master_key self) = ok l →
  ∃ it ks,
    DES_KS.__iter__ self = ok it
    ∧ consume (S (length l)) it = Some ks
    ∧ length ks = length l
    ∧ ∀ (n : nat) (k : val),
        ks !! n = Some k → DES_KS.__getitem__ self (Z.of_nat n) = ok k.
Proof.
  intros Hkey Hcall. exists (iter l), l. split_and!.
  - unfold DES_KS.__iter__.
    destruct (DES_KS._master_key self); [done| |]; by rewrite Hcall, bind_ok.
  - apply consume_iter.
  - done.
  - intros n k Hk. rewrite (getitem_of_call self l) by done.
    apply getitem_at; [lia|]. by rewrite Nat2Z.id.
Qed.

Lemma iter_agrees_with_getitem_witness :
  ∃ it ks,
    DES_KS.__iter__ (H := λ _ _, ok [VInt 5; VInt 7])
      (DES_KS.__init__ 2 (VInt 0)) = ok it
    ∧ consume (S (length [VInt 5; VInt 7])) it = Some ks
    ∧ length ks = length [VInt 5; VInt 7]
    ∧ ∀ (n : nat) (k : val),
        ks !! n = Some k →
        DES_KS.__getitem__ (H := λ _ _, ok [VInt 5; VInt 7])
          (DES_KS.__init__ 2 (VInt 0)) (Z.of_nat n) = ok k.
Proof.
  apply (iter_agrees_with_getitem (H := λ _ _, ok [VInt 5; VInt 7])
           (DES_KS.__init__ 2 (VInt 0)) [VInt 5; VInt 7]);
    [discriminate|reflexivity].
Defined.

(** X17: [==] on key schedules is not transitive: the key schedule whose
    master key is the integer 0 equals the one whose master key is the
    two-bit zero vector and the one whose master key is the three-bit
    zero vector, and these two are not equal. *)
Theorem eq_not_transitive :
  ∃ a b c : DES_KS.t,
    DES_KS.__eq__ a (DES_KS.Instance b) = true
    ∧ DES_KS.__eq__ b (DES_KS.Instance c) = true
    ∧ DES_KS.__eq__ a (DES_KS.Instance c) = false.
Proof.
  exists (DES_KS.__init__ 16 (VBits [false; false])),
         (DES_KS.__init__ 16 (VInt 0)),
         (DES_KS.__init__ 16 (VBits [false; false; false])).
  split_and!; vm_compute; reflexivity.
Qed.
